(** * Tensor-parallel sharding policy of GPT-J (oslo)

    A shallow embedding of [oslo/models/gptj/configuration_gptj.py]:
    the configuration object, the [Layer] descriptors that
    [GPTJLayerPolicy] returns for the regions of a GPT-J model, the
    in-place update of the attention hyper-parameters
    ([reduce_arguments]) and the table of fused modules.  The
    partitioning primitives the policy refers to live in other files of
    the package; they are modelled from the specification and marked as
    such. *)

From stdpp Require Import base option list gmap strings.
From Stdlib Require Import ZArith Lia.

Local Open Scope Z_scope.
Local Open Scope string_scope.

(** ** Module classes

    Python classes are used as dictionary keys and values
    ([replace={nn.Linear: ColumnParallelLinear}], [fused_modules]); they
    are compared by identity, so an enumeration is enough. *)

Inductive ModuleType : Type :=
  | nn_Linear
  | nn_Embedding
  | nn_LayerNorm
  | ColumnParallelLinear
  | RowParallelLinear
  | VocabParallelEmbedding
  | GPTJAttention
  | GPTJMLP
  | FusedGPTJAttention
  | FusedGPTJMLP
  | GPTJBlock.

#[global] Instance ModuleType_eq_dec : EqDecision ModuleType.
Proof. solve_decision. Defined.

Definition ModuleType_code (c : ModuleType) : nat :=
  match c with
  | nn_Linear => 0 | nn_Embedding => 1 | nn_LayerNorm => 2
  | ColumnParallelLinear => 3 | RowParallelLinear => 4
  | VocabParallelEmbedding => 5
  | GPTJAttention => 6 | GPTJMLP => 7
  | FusedGPTJAttention => 8 | FusedGPTJMLP => 9
  | GPTJBlock => 10
  end%nat.

Definition ModuleType_decode (n : nat) : ModuleType :=
  match n with
  | 0 => nn_Linear | 1 => nn_Embedding | 2 => nn_LayerNorm
  | 3 => ColumnParallelLinear | 4 => RowParallelLinear
  | 5 => VocabParallelEmbedding
  | 6 => GPTJAttention | 7 => GPTJMLP
  | 8 => FusedGPTJAttention | 9 => FusedGPTJMLP
  | _ => GPTJBlock
  end%nat.

#[global] Instance ModuleType_countable : Countable ModuleType.
Proof.
  apply (inj_countable' ModuleType_code ModuleType_decode).
  intros c; destruct c; reflexivity.
Defined.

(** ** Exceptions *)

Inductive exn : Type :=
  | ZeroDivisionError
  | AttributeError (name : string).

(** ** The configuration object

    [GPTJConfig.__init__] stores its arguments as attributes of the same
    name.  Only the integer-valued attributes are kept here; the float,
    string and boolean ones ([resid_pdrop], [activation_function],
    [use_cache], ...) are never read by the policy. *)

Record GPTJConfig : Type := mkGPTJConfig {
  vocab_size : Z;
  n_positions : Z;
  n_embd : Z;
  n_layer : Z;
  n_head : Z;
  n_inner : option Z;
  rotary_dim : Z;
  bos_token_id : Z;
  eos_token_id : Z;
}.

(** [GPTJConfig()] with every argument left at its default. *)
Definition GPTJConfig_default : GPTJConfig :=
  {| vocab_size := 50400;
     n_positions := 2048;
     n_embd := 4096;
     n_layer := 28;
     n_head := 16;
     n_inner := None;
     rotary_dim := 64;
     bos_token_id := 50256;
     eos_token_id := 50256 |}.

(** The class attribute [attribute_map]: the standard names of the
    transformers library, mapped to the names this class stores. *)
Definition attribute_map : list (string * string) :=
  [ ("max_position_embeddings", "n_positions");
    ("hidden_size", "n_embd");
    ("num_attention_heads", "n_head");
    ("num_hidden_layers", "n_layer") ].

Fixpoint dict_get (d : list (string * string)) (key : string) : option string :=
  match d with
  | [] => None
  | (k, v) :: d' => if String.eqb k key then Some v else dict_get d' key
  end.

(** The integer attributes an instance carries under their own name. *)
Definition instance_attr (config : GPTJConfig) (key : string) : option Z :=
  if String.eqb key "vocab_size" then Some (vocab_size config)
  else if String.eqb key "n_positions" then Some (n_positions config)
  else if String.eqb key "n_embd" then Some (n_embd config)
  else if String.eqb key "n_layer" then Some (n_layer config)
  else if String.eqb key "n_head" then Some (n_head config)
  else if String.eqb key "n_inner" then n_inner config
  else if String.eqb key "rotary_dim" then Some (rotary_dim config)
  else if String.eqb key "bos_token_id" then Some (bos_token_id config)
  else if String.eqb key "eos_token_id" then Some (eos_token_id config)
  else None.

(** [config.key]: a key of [attribute_map] is first renamed, then the
    attribute is read from the instance. *)
Definition getattr (config : GPTJConfig) (key : string) : exn + Z :=
  let key' := default key (dict_get attribute_map key) in
  match instance_attr config key' with
  | Some v => inr v
  | None => inl (AttributeError key')
  end.

(** Python's [a // b] on integers: the floor of the quotient, and
    [ZeroDivisionError] for a zero divisor. *)
Definition floordiv (a b : Z) : exn + Z :=
  if Z.eqb b 0 then inl ZeroDivisionError else inr (Z.div a b).

(** ** Tensors, modules and the module tree of a GPT-J model *)

#[local] Set Warnings "-register-all".

(** A tensor as nested sequences along its leading axis; a 0-dimensional
    tensor is a [Scalar].  The policy never looks at the entries, so
    their type is left open. *)
Inductive Tensor (scalar : Type) : Type :=
  | Scalar (x : scalar)
  | Stack (ts : list (Tensor scalar)).

Arguments Scalar {scalar} x.
Arguments Stack {scalar} ts.

Section Model.
Context {scalar : Type}.

Local Abbreviation Tensor := (Tensor scalar).

(** [nn.Linear]: the weight has shape (out_features, in_features);
    the bias is [None] when the layer was built with [bias=False]. *)
Record Linear : Type := mkLinear {
  linear_weight : Tensor;
  linear_bias : option Tensor;
}.

Record LayerNorm : Type := mkLayerNorm {
  norm_weight : Tensor;
  norm_bias : Tensor;
}.

Record Embedding : Type := mkEmbedding {
  embedding_weight : Tensor;
}.

(** The attributes of the attention module of a block that the policy
    reads or writes. *)
Record Attention : Type := mkAttention {
  q_proj : Linear;
  k_proj : Linear;
  v_proj : Linear;
  out_proj : Linear;
  attn_bias : Tensor;
  masked_bias : Tensor;
  embed_dim : Z;
  num_attention_heads : Z;
}.

Record MLP : Type := mkMLP {
  fc_in : Linear;
  fc_out : Linear;
}.

(** One transformer block ([layer] in the policy's methods). *)
Record Block : Type := mkBlock {
  ln_1 : LayerNorm;
  attn : Attention;
  mlp : MLP;
}.

Record Model : Type := mkModel {
  wte : Embedding;
  h : list Block;
  ln_f : LayerNorm;
}.

(** A module object, as stored in the [module] field of a descriptor. *)
Inductive Module : Type :=
  | Module_Linear (m : Linear)
  | Module_LayerNorm (m : LayerNorm)
  | Module_Embedding (m : Embedding).

Definition class_of (m : Module) : ModuleType :=
  match m with
  | Module_Linear _ => nn_Linear
  | Module_LayerNorm _ => nn_LayerNorm
  | Module_Embedding _ => nn_Embedding
  end.

(** ** Layer descriptors *)

Record Layer : Type := mkLayer {
  module : option Module;
  weight : option Tensor;
  bias : option Tensor;
  parallel : bool;
  replace : option (gmap ModuleType ModuleType);
}.

(** Modelled from the spec: the constructor of the descriptor class
    [oslo.parallelism.mpu.Layer], which is imported by the policy but
    defined elsewhere.  Every field is a keyword argument; an argument
    that a call leaves out is [None] here.  The module, the tensors and
    the substitution mapping are optional and stay absent, the
    partition flag defaults to true. *)
Definition new_Layer (module : option Module) (weight bias : option Tensor)
    (parallel : option bool) (replace : option (gmap ModuleType ModuleType))
    : Layer :=
  {| module := module;
     weight := weight;
     bias := bias;
     parallel := default true parallel;
     replace := replace |}.

(** ** Statements that update a block in place

    A computation on a block returns the block as it has left it and
    either the exception it raised or its value. *)
Definition Exec (A : Type) : Type := Block -> Block * (exn + A).

#[global] Instance Exec_ret : MRet Exec :=
  fun A a layer => (layer, inr a).

#[global] Instance Exec_bind : MBind Exec :=
  fun A B f m layer =>
    match m layer with
    | (layer', inr a) => f a layer'
    | (layer', inl e) => (layer', inl e)
    end.

(** The value of an expression that may raise and has no effect. *)
Definition eval {A : Type} (r : exn + A) : Exec A :=
  fun layer => (layer, r).

Definition set_embed_dim (v : Z) : Exec unit :=
  fun layer =>
    let a := attn layer in
    ({| ln_1 := ln_1 layer;
        attn := {| q_proj := q_proj a; k_proj := k_proj a;
                   v_proj := v_proj a; out_proj := out_proj a;
                   attn_bias := attn_bias a; masked_bias := masked_bias a;
                   embed_dim := v;
                   num_attention_heads := num_attention_heads a |};
        mlp := mlp layer |}, inr tt).

Definition set_num_attention_heads (v : Z) : Exec unit :=
  fun layer =>
    let a := attn layer in
    ({| ln_1 := ln_1 layer;
        attn := {| q_proj := q_proj a; k_proj := k_proj a;
                   v_proj := v_proj a; out_proj := out_proj a;
                   attn_bias := attn_bias a; masked_bias := masked_bias a;
                   embed_dim := embed_dim a;
                   num_attention_heads := v |};
        mlp := mlp layer |}, inr tt).

(** ** GPTJLayerPolicy *)

(** [reduce_arguments(layer, world_size, config)]: two assignments,
    each evaluating its right-hand side before it stores. *)
Definition reduce_arguments (layer : Block) (world_size : Z)
    (config : GPTJConfig) : Block * (exn + unit) :=
  (hidden_size ← eval (getattr config "hidden_size");
   width ← eval (floordiv hidden_size world_size);
   set_embed_dim width;;
   heads ← eval (getattr config "n_head");
   local_heads ← eval (floordiv heads world_size);
   set_num_attention_heads local_heads) layer.

Definition fused_modules : gmap ModuleType ModuleType :=
  {[ GPTJAttention := FusedGPTJAttention;
     GPTJMLP := FusedGPTJMLP ]}.

Definition attn_qkv (layer : Block) (config : GPTJConfig) : list Layer :=
  [ new_Layer (Some (Module_Linear (q_proj (attn layer))))
              (Some (linear_weight (q_proj (attn layer))))
              None None
              (Some {[ nn_Linear := ColumnParallelLinear ]});
    new_Layer (Some (Module_Linear (k_proj (attn layer))))
              (Some (linear_weight (k_proj (attn layer))))
              None None
              (Some {[ nn_Linear := ColumnParallelLinear ]});
    new_Layer (Some (Module_Linear (v_proj (attn layer))))
              (Some (linear_weight (v_proj (attn layer))))
              None None
              (Some {[ nn_Linear := ColumnParallelLinear ]}) ].

Definition attn_out (layer : Block) (config : GPTJConfig) : list Layer :=
  [ new_Layer (Some (Module_Linear (out_proj (attn layer))))
              (Some (linear_weight (out_proj (attn layer))))
              None None
              (Some {[ nn_Linear := RowParallelLinear ]}) ].

Definition attn_norm (layer : Block) (config : GPTJConfig) : list Layer :=
  [ new_Layer (Some (Module_LayerNorm (ln_1 layer)))
              (Some (norm_weight (ln_1 layer)))
              (Some (norm_bias (ln_1 layer)))
              (Some false)
              None ].

Definition mlp_in (layer : Block) (config : GPTJConfig) : list Layer :=
  [ new_Layer (Some (Module_Linear (fc_in (mlp layer))))
              (Some (linear_weight (fc_in (mlp layer))))
              (linear_bias (fc_in (mlp layer)))
              None
              (Some {[ nn_Linear := ColumnParallelLinear ]}) ].

Definition mlp_out (layer : Block) (config : GPTJConfig) : list Layer :=
  [ new_Layer (Some (Module_Linear (fc_out (mlp layer))))
              (Some (linear_weight (fc_out (mlp layer))))
              (linear_bias (fc_out (mlp layer)))
              None
              (Some {[ nn_Linear := RowParallelLinear ]}) ].

Definition word_embedding (model : Model) (config : GPTJConfig) : list Layer :=
  [ new_Layer (Some (Module_Embedding (wte model)))
              (Some (embedding_weight (wte model)))
              None None
              (Some {[ nn_Embedding := VocabParallelEmbedding ]}) ].

Definition block_layers (model : Model) (config : GPTJConfig) : list Block :=
  h model.

Definition postblock_layers (model : Model) (config : GPTJConfig) : list Layer :=
  [ new_Layer (Some (Module_LayerNorm (ln_f model)))
              (Some (norm_weight (ln_f model)))
              (Some (norm_bias (ln_f model)))
              (Some false)
              None ].

Definition copy_to_all (layer : Block) (config : GPTJConfig) : list Layer :=
  [ new_Layer None None (Some (attn_bias (attn layer))) (Some false) None;
    new_Layer None None (Some (masked_bias (attn layer))) (Some false) None ].

Definition original_layer_class : ModuleType := GPTJBlock.

End Model.

Arguments Linear : clear implicits.
Arguments LayerNorm : clear implicits.
Arguments Embedding : clear implicits.
Arguments Attention : clear implicits.
Arguments MLP : clear implicits.
Arguments Block : clear implicits.
Arguments Model : clear implicits.
Arguments Module : clear implicits.
Arguments Layer : clear implicits.
Arguments Exec : clear implicits.

(** Two calls of [reduce_arguments] in a row on the same block, with the
    same arguments; the second runs on the block as the first left it,
    and only when the first returned. *)
Definition reduce_arguments_twice {scalar : Type} (layer : Block scalar)
    (world_size : Z) (config : GPTJConfig) : Block scalar * (exn + unit) :=
  (((fun l => reduce_arguments l world_size config) : Exec scalar unit) ;;
   ((fun l => reduce_arguments l world_size config) : Exec scalar unit)) layer.

(** The class a descriptor asks for in place of its module: its
    [replace] mapping, looked up at the class of the module it carries. *)
Definition substitution {scalar : Type} (d : Layer scalar) : option ModuleType :=
  m ← module d; r ← replace d; r !! class_of m.

(** ** Partitioning primitives *)

Section Partitioning.
Context {scalar : Type}.

Local Abbreviation Tensor := (Tensor scalar).
Local Abbreviation Linear := (Linear scalar).

(** Modelled from the spec: the error of a tensor dimension that the
    world size does not divide. *)
Inductive ShardingError : Type :=
  | ShapeError.

(** The slices of a tensor along its leading axis. *)
Definition rows (t : Tensor) : list Tensor :=
  match t with
  | Stack ts => ts
  | Scalar _ => []
  end.

(** Slices [start, stop) of the leading axis. *)
Definition narrow (t : Tensor) (start stop : nat) : Tensor :=
  Stack (take (stop - start) (drop start (rows t))).

(** Concatenation along the leading axis. *)
Definition cat (ts : list Tensor) : Tensor :=
  Stack (concat (map rows ts)).

Definition out_features (lin : Linear) : nat :=
  length (rows (linear_weight lin)).

(** Modelled from the spec: the output-feature slice of a rank,
    [rank * (out_features / world_size), (rank+1) * (out_features / world_size)).
    The class [oslo.ColumnParallelLinear] is imported by the policy
    but defined elsewhere. *)
Definition column_slice (out_features world_size rank : nat) : nat * nat :=
  ((rank * (out_features / world_size))%nat,
   ((rank + 1) * (out_features / world_size))%nat).

(** Modelled from the spec: the shard of a rank, the slice of the
    tensor along its leading axis. *)
Definition column_shard (world_size rank : nat) (t : Tensor) : Tensor :=
  let '(start, stop) := column_slice (length (rows t)) world_size rank in
  narrow t start stop.

(** Modelled from the spec: construction of a column-parallel linear
    operator from a dense one ([oslo.ColumnParallelLinear], defined
    elsewhere).  It fails with a ShapeError when [world_size] does not
    divide [out_features]; otherwise the weight-row slice of the rank,
    and the slice of the bias when there is one, are copied into a new
    operator.  The dense operator is not touched. *)
Definition ColumnParallelLinear_of (lin : Linear) (rank world_size : nat)
    : ShardingError + Linear :=
  if Nat.eqb (out_features lin mod world_size) 0 then
    inr {| linear_weight := column_shard world_size rank (linear_weight lin);
           linear_bias := column_shard world_size rank <$> linear_bias lin |}
  else inl ShapeError.

(** Modelled from the spec: the module tree as an arena of named nodes
    whose content a substitution replaces by key; a node holds a dense
    linear operator or the parallel operator that has replaced it.
    The orchestrator ([oslo.parallelism]) is defined elsewhere. *)
Inductive Node : Type :=
  | Dense (lin : Linear)
  | Parallel (cls : ModuleType) (lin : Linear).

(** Modelled from the spec: the shape check of a sharding pass over
    the operators to split column-wise, made before any parameter is
    copied. *)
Definition shape_check (world_size : nat) (tree : gmap string Node)
    (keys : list string) : bool :=
  forallb (fun key =>
             match tree !! key with
             | Some (Dense lin) => Nat.eqb (out_features lin mod world_size) 0
             | _ => true
             end) keys.

(** Modelled from the spec: the in-place substitution of one node. *)
Definition substitute_column (rank world_size : nat) (key : string)
    (tree : gmap string Node) : gmap string Node * (ShardingError + unit) :=
  match tree !! key with
  | Some (Dense lin) =>
      match ColumnParallelLinear_of lin rank world_size with
      | inr shard => (<[key := Parallel ColumnParallelLinear shard]> tree, inr tt)
      | inl e => (tree, inl e)
      end
  | _ => (tree, inr tt)
  end.

(** Modelled from the spec: the substitutions of a pass, in order,
    stopping at the first that fails. *)
Fixpoint substitute_columns (rank world_size : nat) (keys : list string)
    (tree : gmap string Node) : gmap string Node * (ShardingError + unit) :=
  match keys with
  | [] => (tree, inr tt)
  | key :: keys' =>
      match substitute_column rank world_size key tree with
      | (tree', inr _) => substitute_columns rank world_size keys' tree'
      | (tree', inl e) => (tree', inl e)
      end
  end.

(** Modelled from the spec: a sharding pass over the column-parallel
    operators of a model.  A ShapeError aborts the pass before any
    state is mutated; otherwise each node is replaced in turn. *)
Definition shard_columns (rank world_size : nat) (keys : list string)
    (tree : gmap string Node) : gmap string Node * (ShardingError + unit) :=
  if shape_check world_size tree keys
  then substitute_columns rank world_size keys tree
  else (tree, inl ShapeError).

End Partitioning.

Arguments Node : clear implicits.

(** ** Resolution of attribute names *)

(** The name under which [config.key] is read: the entry of
    [attribute_map] for [key], or [key] itself. *)
Definition resolve_attribute (key : string) : string :=
  default key (dict_get attribute_map key).

(** ** The descriptors of a block and of a model *)

(** [m.weight] and [m.bias] of a module object; an embedding has no
    bias. *)
Definition module_weight {scalar : Type} (m : Module scalar) : Tensor scalar :=
  match m with
  | Module_Linear lin => linear_weight lin
  | Module_LayerNorm norm => norm_weight norm
  | Module_Embedding emb => embedding_weight emb
  end.

Definition module_bias {scalar : Type} (m : Module scalar)
    : option (Tensor scalar) :=
  match m with
  | Module_Linear lin => linear_bias lin
  | Module_LayerNorm norm => Some (norm_bias norm)
  | Module_Embedding _ => None
  end.

(** Every descriptor the policy returns for one block, method by method
    in the order the class lists them. *)
Definition block_descriptors {scalar : Type} (layer : Block scalar)
    (config : GPTJConfig) : list (Layer scalar) :=
  (attn_qkv layer config ++ attn_out layer config ++ attn_norm layer config
     ++ mlp_in layer config ++ mlp_out layer config
     ++ copy_to_all layer config)%list.

(** Every descriptor the policy returns for a model: the word embedding,
    the blocks of [block_layers] one after the other, the layers after
    the blocks. *)
Definition model_descriptors {scalar : Type} (model : Model scalar)
    (config : GPTJConfig) : list (Layer scalar) :=
  (word_embedding model config
     ++ flat_map (fun layer => block_descriptors layer config)
                 (block_layers model config)
     ++ postblock_layers model config)%list.

(** A descriptor never mixes modules: the weight it carries is the
    weight of its own module, and its bias, when it has one, is the bias
    of that module.  A descriptor without a module carries no weight. *)
Definition owns_its_tensors {scalar : Type} (d : Layer scalar) : Prop :=
  match module d with
  | Some m =>
      weight d = Some (module_weight m) /\
      (bias d = None \/ bias d = module_bias m)
  | None => weight d = None
  end.

(** A descriptor is either replicated or substituted: one without a
    [replace] mapping is marked [parallel=False]; one with a mapping has
    a module, the class of that module is the only key of the mapping,
    and the value is one of the three parallel classes. *)
Definition replicated_or_substituted {scalar : Type} (d : Layer scalar) : Prop :=
  (replace d = None -> parallel d = false) /\
  (substitution d = None <-> replace d = None) /\
  (forall r, replace d = Some r ->
     exists m, module d = Some m /\ dom r = ({[ class_of m ]} : gset ModuleType)) /\
  (forall c, substitution d = Some c ->
     c = ColumnParallelLinear \/ c = RowParallelLinear
     \/ c = VocabParallelEmbedding).

(** Whether a descriptor asks for a substitution. *)
Definition has_replace {scalar : Type} (d : Layer scalar) : bool :=
  match replace d with
  | Some _ => true
  | None => false
  end.

(** ** Sharding a model in place *)

(** The submodules of a block that the policy names:
    [layer.attn.q_proj], [layer.attn.k_proj], [layer.attn.v_proj],
    [layer.attn.out_proj], [layer.ln_1], [layer.mlp.fc_in] and
    [layer.mlp.fc_out]. *)
Inductive BlockSlot : Type :=
  | slot_q_proj
  | slot_k_proj
  | slot_v_proj
  | slot_out_proj
  | slot_ln_1
  | slot_fc_in
  | slot_fc_out.

(** The place of a module in the module tree of a model: [model.wte],
    a submodule of the block [model.h[i]], or [model.ln_f]. *)
Inductive ModulePath : Type :=
  | path_wte
  | path_h (i : nat) (slot : BlockSlot)
  | path_ln_f.

#[global] Instance BlockSlot_eq_dec : EqDecision BlockSlot.
Proof. solve_decision. Defined.

#[global] Instance ModulePath_eq_dec : EqDecision ModulePath.
Proof. solve_decision. Defined.

Definition BlockSlot_code (slot : BlockSlot) : nat :=
  match slot with
  | slot_q_proj => 0 | slot_k_proj => 1 | slot_v_proj => 2
  | slot_out_proj => 3 | slot_ln_1 => 4 | slot_fc_in => 5 | slot_fc_out => 6
  end%nat.

Definition BlockSlot_decode (n : nat) : BlockSlot :=
  match n with
  | 0 => slot_q_proj | 1 => slot_k_proj | 2 => slot_v_proj
  | 3 => slot_out_proj | 4 => slot_ln_1 | 5 => slot_fc_in | _ => slot_fc_out
  end%nat.

Definition ModulePath_code (p : ModulePath) : nat + nat * nat :=
  match p with
  | path_wte => inl 0%nat
  | path_ln_f => inl 1%nat
  | path_h i slot => inr (i, BlockSlot_code slot)
  end.

Definition ModulePath_decode (c : nat + nat * nat) : ModulePath :=
  match c with
  | inl 0%nat => path_wte
  | inl _ => path_ln_f
  | inr (i, n) => path_h i (BlockSlot_decode n)
  end.

#[global] Instance ModulePath_countable : Countable ModulePath.
Proof.
  apply (inj_countable' ModulePath_code ModulePath_decode).
  intros [| i [] |]; reflexivity.
Defined.

Section InPlace.
Context {scalar : Type}.

Local Abbreviation Tensor := (Tensor scalar).
Local Abbreviation Linear := (Linear scalar).
Local Abbreviation Embedding := (Embedding scalar).
Local Abbreviation Module := (Module scalar).
Local Abbreviation Block := (Block scalar).
Local Abbreviation Model := (Model scalar).
Local Abbreviation Layer := (Layer scalar).

(** The module object found at a slot of a block. *)
Definition slot_module (layer : Block) (slot : BlockSlot) : Module :=
  match slot with
  | slot_q_proj => Module_Linear (q_proj (attn layer))
  | slot_k_proj => Module_Linear (k_proj (attn layer))
  | slot_v_proj => Module_Linear (v_proj (attn layer))
  | slot_out_proj => Module_Linear (out_proj (attn layer))
  | slot_ln_1 => Module_LayerNorm (ln_1 layer)
  | slot_fc_in => Module_Linear (fc_in (mlp layer))
  | slot_fc_out => Module_Linear (fc_out (mlp layer))
  end.

(** Modelled from the spec: a node of the module tree, the class of the
    module object and its parameters.  The tree is an arena of nodes
    keyed by their place; a substitution replaces the content of a node
    by key, and the module it held before is gone. *)
Record TreeNode : Type := mkTreeNode {
  node_class : ModuleType;
  node_module : Module;
}.

(** The node of a module that has not been replaced. *)
Definition dense (m : Module) : TreeNode :=
  {| node_class := class_of m; node_module := m |}.

Definition block_nodes (i : nat) (layer : Block) : gmap ModulePath TreeNode :=
  <[path_h i slot_q_proj := dense (slot_module layer slot_q_proj)]>
  (<[path_h i slot_k_proj := dense (slot_module layer slot_k_proj)]>
  (<[path_h i slot_v_proj := dense (slot_module layer slot_v_proj)]>
  (<[path_h i slot_out_proj := dense (slot_module layer slot_out_proj)]>
  (<[path_h i slot_ln_1 := dense (slot_module layer slot_ln_1)]>
  (<[path_h i slot_fc_in := dense (slot_module layer slot_fc_in)]>
  (<[path_h i slot_fc_out := dense (slot_module layer slot_fc_out)]> ∅)))))).

Fixpoint blocks_nodes (i : nat) (blocks : list Block)
    : gmap ModulePath TreeNode :=
  match blocks with
  | [] => ∅
  | layer :: blocks' => block_nodes i layer ∪ blocks_nodes (S i) blocks'
  end.

(** The module tree of a model before sharding: the word embedding, the
    submodules of every block of [model.h], the final normalization. *)
Definition module_tree (model : Model) : gmap ModulePath TreeNode :=
  <[path_wte := dense (Module_Embedding (wte model))]>
  (<[path_ln_f := dense (Module_LayerNorm (ln_f model))]>
  (blocks_nodes 0 (h model))).

(** [in_features] of a linear operator: the length of a weight row. *)
Definition in_features (lin : Linear) : nat :=
  match rows (linear_weight lin) with
  | row :: _ => length (rows row)
  | [] => 0%nat
  end.

(** [num_embeddings] of an embedding: the number of weight rows. *)
Definition num_embeddings (emb : Embedding) : nat :=
  length (rows (embedding_weight emb)).

(** Modelled from the spec: the slice of a rank along the input-feature
    axis, taken in every weight row as [column_shard] takes it along
    the output-feature axis. *)
Definition row_shard (world_size rank : nat) (t : Tensor) : Tensor :=
  Stack (column_shard world_size rank <$> rows t).

(** Modelled from the spec: the operators a rank holds after the split.
    A column-parallel operator holds the weight-row slice and the slice
    of the bias; a row-parallel one holds the input-feature slice of
    every weight row (the spec slices nothing else, the bias is kept);
    a vocabulary-parallel embedding holds the slice of the vocabulary
    axis. *)
Definition column_parallel (world_size rank : nat) (lin : Linear) : Linear :=
  {| linear_weight := column_shard world_size rank (linear_weight lin);
     linear_bias := column_shard world_size rank <$> linear_bias lin |}.

(** Modelled from the spec: the row-parallel operator of a rank; only
    the input-feature axis of the weight is sliced. *)
Definition row_parallel (world_size rank : nat) (lin : Linear) : Linear :=
  {| linear_weight := row_shard world_size rank (linear_weight lin);
     linear_bias := linear_bias lin |}.

(** Modelled from the spec: the vocabulary-parallel embedding of a rank;
    the vocabulary axis of the table is sliced. *)
Definition vocab_parallel (world_size rank : nat) (emb : Embedding)
    : Embedding :=
  {| embedding_weight := column_shard world_size rank (embedding_weight emb) |}.

(** Modelled from the spec: construction of a row-parallel linear
    operator ([oslo.RowParallelLinear], defined elsewhere): the
    input-feature axis is sliced as the output-feature axis is for a
    column-parallel one, with a ShapeError when the world size does not
    divide it. *)
Definition RowParallelLinear_of (lin : Linear) (rank world_size : nat)
    : ShardingError + Linear :=
  if Nat.eqb (in_features lin mod world_size) 0
  then inr (row_parallel world_size rank lin)
  else inl ShapeError.

(** Modelled from the spec: construction of a vocabulary-parallel
    embedding ([oslo.VocabParallelEmbedding], defined elsewhere): the
    vocabulary axis is sliced, with a ShapeError when the world size
    does not divide it. *)
Definition VocabParallelEmbedding_of (emb : Embedding) (rank world_size : nat)
    : ShardingError + Embedding :=
  if Nat.eqb (num_embeddings emb mod world_size) 0
  then inr (vocab_parallel world_size rank emb)
  else inl ShapeError.

(** Modelled from the spec: the parallel module of class [cls] built
    from a module.  The spec defines the three constructions below; for
    any other pair nothing is sliced. *)
Definition parallel_module (cls : ModuleType) (m : Module)
    (rank world_size : nat) : ShardingError + Module :=
  match cls, m with
  | ColumnParallelLinear, Module_Linear lin =>
      match ColumnParallelLinear_of lin rank world_size with
      | inr shard => inr (Module_Linear shard)
      | inl e => inl e
      end
  | RowParallelLinear, Module_Linear lin =>
      match RowParallelLinear_of lin rank world_size with
      | inr shard => inr (Module_Linear shard)
      | inl e => inl e
      end
  | VocabParallelEmbedding, Module_Embedding emb =>
      match VocabParallelEmbedding_of emb rank world_size with
      | inr shard => inr (Module_Embedding shard)
      | inl e => inl e
      end
  | _, _ => inr m
  end.

(** Modelled from the spec: what a descriptor asks to put in place of
    its module: nothing when it has no substitution (it is replicated),
    otherwise the node of the parallel module built from the module it
    carries, or the error of that construction. *)
Definition replacement (rank world_size : nat) (d : Layer)
    : option (ShardingError + TreeNode) :=
  match substitution d, module d with
  | Some cls, Some m =>
      Some match parallel_module cls m rank world_size with
           | inr m' => inr {| node_class := cls; node_module := m' |}
           | inl e => inl e
           end
  | _, _ => None
  end.

(** Modelled from the spec: one descriptor applied at the place of its
    module; the node there is replaced in place. *)
Definition apply_descriptor (rank world_size : nat)
    (site : ModulePath * Layer) (tree : gmap ModulePath TreeNode)
    : gmap ModulePath TreeNode * (ShardingError + unit) :=
  match replacement rank world_size site.2 with
  | None => (tree, inr tt)
  | Some (inr node) => (<[site.1 := node]> tree, inr tt)
  | Some (inl e) => (tree, inl e)
  end.

(** Modelled from the spec: the descriptors of a pass applied in order,
    stopping at the first error. *)
Fixpoint apply_descriptors (rank world_size : nat)
    (sites : list (ModulePath * Layer)) (tree : gmap ModulePath TreeNode)
    : gmap ModulePath TreeNode * (ShardingError + unit) :=
  match sites with
  | [] => (tree, inr tt)
  | site :: sites' =>
      match apply_descriptor rank world_size site tree with
      | (tree', inr _) => apply_descriptors rank world_size sites' tree'
      | (tree', inl e) => (tree', inl e)
      end
  end.

(** Modelled from the spec: the shape check made before any parameter
    is copied: no construction of the pass may fail. *)
Definition shapes_fit (rank world_size : nat)
    (sites : list (ModulePath * Layer)) : bool :=
  forallb (fun site =>
             match replacement rank world_size site.2 with
             | Some (inl _) => false
             | _ => true
             end) sites.

(** The descriptors of the block [model.h[i]] that carry a module, each
    with the place of that module; the methods are taken in the order
    of a sharding pass.  The descriptors of [copy_to_all] carry buffers
    and no module, so they name no node of the tree. *)
Definition block_sites (i : nat) (layer : Block) (config : GPTJConfig)
    : list (ModulePath * Layer) :=
  (zip [path_h i slot_q_proj; path_h i slot_k_proj; path_h i slot_v_proj]
       (attn_qkv layer config)
   ++ zip [path_h i slot_out_proj] (attn_out layer config)
   ++ zip [path_h i slot_ln_1] (attn_norm layer config)
   ++ zip [path_h i slot_fc_in] (mlp_in layer config)
   ++ zip [path_h i slot_fc_out] (mlp_out layer config))%list.

Fixpoint blocks_sites (i : nat) (blocks : list Block) (config : GPTJConfig)
    : list (ModulePath * Layer) :=
  match blocks with
  | [] => []
  | layer :: blocks' =>
      (block_sites i layer config ++ blocks_sites (S i) blocks' config)%list
  end.

(** The descriptors of a whole model with their places: the word
    embedding, then block after block, then the layers after the
    blocks. *)
Definition model_sites (model : Model) (config : GPTJConfig)
    : list (ModulePath * Layer) :=
  (zip [path_wte] (word_embedding model config)
   ++ blocks_sites 0 (block_layers model config) config
   ++ zip [path_ln_f] (postblock_layers model config))%list.

(** Modelled from the spec: the module substitutions of a sharding pass
    over a model, driven by the descriptors of the policy.  A ShapeError
    aborts the pass before the tree is touched. *)
Definition shard_model (rank world_size : nat) (model : Model)
    (config : GPTJConfig) (tree : gmap ModulePath TreeNode)
    : gmap ModulePath TreeNode * (ShardingError + unit) :=
  if shapes_fit rank world_size (model_sites model config)
  then apply_descriptors rank world_size (model_sites model config) tree
  else (tree, inl ShapeError).

(** The tree a descriptor leaves when its construction does not fail. *)
Definition apply_unchecked (rank world_size : nat)
    (tree : gmap ModulePath TreeNode) (site : ModulePath * Layer)
    : gmap ModulePath TreeNode :=
  match replacement rank world_size site.2 with
  | Some (inr node) => <[site.1 := node]> tree
  | _ => tree
  end.

(** The world size divides every axis that the policy has split: the
    vocabulary, the output features of q_proj, k_proj, v_proj and fc_in
    and the input features of out_proj and fc_out of every block. *)
Definition block_divisible (world_size : nat) (layer : Block) : Prop :=
  (out_features (q_proj (attn layer)) mod world_size = 0 /\
   out_features (k_proj (attn layer)) mod world_size = 0 /\
   out_features (v_proj (attn layer)) mod world_size = 0 /\
   in_features (out_proj (attn layer)) mod world_size = 0 /\
   out_features (fc_in (mlp layer)) mod world_size = 0 /\
   in_features (fc_out (mlp layer)) mod world_size = 0)%nat.

Definition model_divisible (world_size : nat) (model : Model) : Prop :=
  (num_embeddings (wte model) mod world_size = 0)%nat /\
  Forall (block_divisible world_size) (h model).

End InPlace.

Arguments TreeNode : clear implicits.

(** ** Small concrete objects

    A block and a model with integer entries, small enough to evaluate
    the policy on. *)

Definition dense_4x2 : Linear Z :=
  {| linear_weight :=
       Stack [ Stack [Scalar 1; Scalar 2]; Stack [Scalar 3; Scalar 4];
               Stack [Scalar 5; Scalar 6]; Stack [Scalar 7; Scalar 8] ];
     linear_bias := None |}.

Definition dense_4x2_biased : Linear Z :=
  {| linear_weight := linear_weight dense_4x2;
     linear_bias := Some (Stack [Scalar 9; Scalar 10; Scalar 11; Scalar 12]) |}.

Definition dense_3x1 : Linear Z :=
  {| linear_weight := Stack [ Stack [Scalar 1]; Stack [Scalar 2]; Stack [Scalar 3] ];
     linear_bias := None |}.

Definition norm_2 : LayerNorm Z :=
  {| norm_weight := Stack [Scalar 1; Scalar 1];
     norm_bias := Stack [Scalar 0; Scalar 0] |}.

Definition small_block : Block Z :=
  {| ln_1 := norm_2;
     attn := {| q_proj := dense_4x2; k_proj := dense_4x2;
                v_proj := dense_4x2; out_proj := dense_4x2;
                attn_bias := Stack [Stack [Stack [Stack [Scalar 1]]]];
                masked_bias := Scalar (-1000000000);
                embed_dim := 4096;
                num_attention_heads := 16 |};
     mlp := {| fc_in := dense_4x2_biased; fc_out := dense_4x2_biased |} |}.

Definition small_model : Model Z :=
  {| wte := {| embedding_weight := linear_weight dense_4x2 |};
     h := [small_block];
     ln_f := norm_2 |}.

(** * Properties *)

Section ReduceArguments.
Context {scalar : Type}.

Implicit Types (layer : Block scalar) (model : Model scalar).
Implicit Types (config : GPTJConfig) (world_size : Z).

(** The two names the policy reads resolve to the stored attributes. *)
Lemma getattr_hidden_size config :
  getattr config "hidden_size" = inr (n_embd config).
Proof. reflexivity. Qed.

Lemma getattr_n_head config :
  getattr config "n_head" = inr (n_head config).
Proof. reflexivity. Qed.

Lemma getattr_num_attention_heads config :
  getattr config "num_attention_heads" = getattr config "n_head".
Proof. reflexivity. Qed.

Lemma floordiv_nonzero (a b : Z) : b <> 0 -> floordiv a b = inr (a / b).
Proof.
  intros Hb. unfold floordiv.
  destruct (Z.eqb_spec b 0) as [E | _]; [contradiction | reflexivity].
Qed.

Lemma floordiv_zero (a : Z) : floordiv a 0 = inl ZeroDivisionError.
Proof. reflexivity. Qed.

(** What a returning call leaves behind. *)
Lemma reduce_arguments_returns layer world_size config :
  world_size <> 0 ->
  reduce_arguments layer world_size config =
    ({| ln_1 := ln_1 layer;
        attn := {| q_proj := q_proj (attn layer);
                   k_proj := k_proj (attn layer);
                   v_proj := v_proj (attn layer);
                   out_proj := out_proj (attn layer);
                   attn_bias := attn_bias (attn layer);
                   masked_bias := masked_bias (attn layer);
                   embed_dim := n_embd config / world_size;
                   num_attention_heads := n_head config / world_size |};
        mlp := mlp layer |}, inr tt).
Proof.
  intros Hw. unfold reduce_arguments, mbind, Exec_bind, eval.
  rewrite getattr_hidden_size, getattr_n_head.
  rewrite !floordiv_nonzero by assumption.
  reflexivity.
Qed.

(** A zero divisor raises at the first assignment, before any store. *)
Lemma reduce_arguments_raises layer config :
  reduce_arguments layer 0 config = (layer, inl ZeroDivisionError).
Proof. reflexivity. Qed.

(** C1. With hidden_size = 4096 and num_attention_heads = 16 in the
    configuration and a world size of 4, [reduce_arguments] returns
    and leaves embed_dim = 1024 and num_attention_heads = 4 in the
    attention module of the block. *)
Theorem reduce_arguments_4096_16_4 layer config :
  getattr config "hidden_size" = inr 4096 ->
  getattr config "num_attention_heads" = inr 16 ->
  snd (reduce_arguments layer 4 config) = inr tt /\
  embed_dim (attn (fst (reduce_arguments layer 4 config))) = 1024 /\
  num_attention_heads (attn (fst (reduce_arguments layer 4 config))) = 4.
Proof.
  rewrite getattr_num_attention_heads, getattr_hidden_size, getattr_n_head.
  intros Hh Hn.
  injection Hh as Hh. injection Hn as Hn.
  rewrite reduce_arguments_returns by discriminate.
  cbn. rewrite Hh, Hn. repeat split; reflexivity.
Qed.

(** The statement of C2 at one block, world size and configuration:
    the attention module after a second call differs from the one
    after a single call. *)
Definition second_call_corrupts layer world_size config : Prop :=
  attn (fst (reduce_arguments_twice layer world_size config)) <>
  attn (fst (reduce_arguments layer world_size config)).

(** C2, amended. [reduce_arguments] is idempotent: both attributes are
    recomputed from the configuration, never from the block, so a
    second call with the same arguments leaves the block (and the
    outcome) exactly as a single call does, for every world size. *)
Theorem reduce_arguments_idempotent layer world_size config :
  reduce_arguments_twice layer world_size config =
  reduce_arguments layer world_size config.
Proof.
  unfold reduce_arguments_twice, mbind, Exec_bind.
  destruct (Z.eq_dec world_size 0) as [-> | Hw].
  - rewrite reduce_arguments_raises. reflexivity.
  - rewrite (reduce_arguments_returns layer) by assumption.
    rewrite reduce_arguments_returns by assumption.
    reflexivity.
Qed.

(** C9. For a positive world size [reduce_arguments] returns without
    raising, stores the floor quotients of hidden_size and n_head by
    the world size, and touches nothing else; the quotient is the
    floor also when the world size does not divide. *)
Theorem reduce_arguments_floor layer world_size config :
  0 < world_size ->
  let layer' := fst (reduce_arguments layer world_size config) in
  snd (reduce_arguments layer world_size config) = inr tt /\
  getattr config "hidden_size" = inr (n_embd config) /\
  embed_dim (attn layer') = n_embd config / world_size /\
  num_attention_heads (attn layer') = n_head config / world_size /\
  world_size * embed_dim (attn layer') <= n_embd config
    < world_size * (embed_dim (attn layer') + 1) /\
  world_size * num_attention_heads (attn layer') <= n_head config
    < world_size * (num_attention_heads (attn layer') + 1) /\
  ln_1 layer' = ln_1 layer /\ mlp layer' = mlp layer /\
  q_proj (attn layer') = q_proj (attn layer) /\
  k_proj (attn layer') = k_proj (attn layer) /\
  v_proj (attn layer') = v_proj (attn layer) /\
  out_proj (attn layer') = out_proj (attn layer) /\
  attn_bias (attn layer') = attn_bias (attn layer) /\
  masked_bias (attn layer') = masked_bias (attn layer).
Proof.
  intros Hw layer'. subst layer'.
  rewrite reduce_arguments_returns by lia. cbn.
  pose proof (Z.mul_div_le (n_embd config) world_size Hw).
  pose proof (Z.mul_succ_div_gt (n_embd config) world_size Hw).
  pose proof (Z.mul_div_le (n_head config) world_size Hw).
  pose proof (Z.mul_succ_div_gt (n_head config) world_size Hw).
  repeat split; try reflexivity; lia.
Qed.

End ReduceArguments.

Lemma reduce_arguments_4096_16_4_witness :
  snd (reduce_arguments small_block 4 GPTJConfig_default) = inr tt /\
  embed_dim (attn (fst (reduce_arguments small_block 4 GPTJConfig_default))) = 1024 /\
  num_attention_heads (attn (fst (reduce_arguments small_block 4 GPTJConfig_default))) = 4.
Proof.
  apply (reduce_arguments_4096_16_4 small_block GPTJConfig_default);
    reflexivity.
Defined.

(** C2, refuted: on the default configuration and world size 4 the
    second call leaves the attention module exactly as the first did. *)
Lemma second_call_corrupts_refuted :
  1 < 4 /\ ~ second_call_corrupts small_block 4 GPTJConfig_default.
Proof. split; [lia |]. intros H. apply H. reflexivity. Qed.

(** World size 3 divides neither 4096 nor 16: the call still returns,
    with 1365 and 5. *)
Lemma reduce_arguments_floor_witness :
  snd (reduce_arguments small_block 3 GPTJConfig_default) = inr tt /\
  embed_dim (attn (fst (reduce_arguments small_block 3 GPTJConfig_default))) = 1365 /\
  num_attention_heads (attn (fst (reduce_arguments small_block 3 GPTJConfig_default))) = 5.
Proof.
  destruct (reduce_arguments_floor small_block 3 GPTJConfig_default)
    as (Hret & _ & He & Hn & _); [lia |].
  split; [exact Hret |]. split; [exact He | exact Hn].
Defined.


Local Close Scope string_scope.

Section Descriptors.
Context {scalar : Type}.

Implicit Types (layer : Block scalar) (model : Model scalar).
Implicit Types (config : GPTJConfig) (d : Layer scalar).

(** What the policy declares: the descriptors of q_proj, k_proj, v_proj
    and fc_in carry the module itself with its weight and ask for
    ColumnParallelLinear in place of nn.Linear; those of out_proj and
    fc_out ask for RowParallelLinear; the one of wte asks for
    VocabParallelEmbedding in place of nn.Embedding. *)
Lemma policy_substitutions layer model config :
  (fun d => (module d, weight d, substitution d))
    <$> (attn_qkv layer config ++ mlp_in layer config) =
    [ (Some (Module_Linear (q_proj (attn layer))),
       Some (linear_weight (q_proj (attn layer))), Some ColumnParallelLinear);
      (Some (Module_Linear (k_proj (attn layer))),
       Some (linear_weight (k_proj (attn layer))), Some ColumnParallelLinear);
      (Some (Module_Linear (v_proj (attn layer))),
       Some (linear_weight (v_proj (attn layer))), Some ColumnParallelLinear);
      (Some (Module_Linear (fc_in (mlp layer))),
       Some (linear_weight (fc_in (mlp layer))), Some ColumnParallelLinear) ] /\
  (fun d => (module d, weight d, substitution d))
    <$> (attn_out layer config ++ mlp_out layer config) =
    [ (Some (Module_Linear (out_proj (attn layer))),
       Some (linear_weight (out_proj (attn layer))), Some RowParallelLinear);
      (Some (Module_Linear (fc_out (mlp layer))),
       Some (linear_weight (fc_out (mlp layer))), Some RowParallelLinear) ] /\
  (fun d => (module d, weight d, substitution d))
    <$> word_embedding model config =
    [ (Some (Module_Embedding (wte model)),
       Some (embedding_weight (wte model)), Some VocabParallelEmbedding) ] /\
  Forall (fun d => replace d = Some {[ nn_Linear := ColumnParallelLinear ]})
    (attn_qkv layer config ++ mlp_in layer config) /\
  Forall (fun d => replace d = Some {[ nn_Linear := RowParallelLinear ]})
    (attn_out layer config ++ mlp_out layer config) /\
  Forall (fun d => replace d = Some {[ nn_Embedding := VocabParallelEmbedding ]})
    (word_embedding model config).
Proof.
  repeat split; try reflexivity;
    repeat (apply Forall_cons; split; [reflexivity |]); apply Forall_nil_2.
Qed.

(** C4. The descriptors of ln_1, of ln_f and of the two attention
    buffers carry parallel = False; the partition flag of a descriptor
    built without it is true, and so is the flag of every other
    descriptor of the policy. *)
Theorem replicated_descriptors layer model config :
  module <$> attn_norm layer config = [Some (Module_LayerNorm (ln_1 layer))] /\
  module <$> postblock_layers model config = [Some (Module_LayerNorm (ln_f model))] /\
  bias <$> copy_to_all layer config =
    [Some (attn_bias (attn layer)); Some (masked_bias (attn layer))] /\
  Forall (fun d => parallel d = false)
    (attn_norm layer config ++ postblock_layers model config
       ++ copy_to_all layer config) /\
  (forall m w b r, parallel (new_Layer (scalar := scalar) m w b None r) = true) /\
  Forall (fun d => parallel d = true)
    (attn_qkv layer config ++ attn_out layer config ++ mlp_in layer config
       ++ mlp_out layer config ++ word_embedding model config).
Proof.
  repeat split; try reflexivity;
    repeat (apply Forall_cons; split; [reflexivity |]); apply Forall_nil_2.
Qed.

(** C10. A descriptor of copy_to_all has a bias and neither module nor
    weight; a descriptor of attn_qkv, attn_out or word_embedding has a
    module and a weight and no bias.  These are the two descriptors of
    the attention buffers and the five of q_proj, k_proj, v_proj,
    out_proj and wte. *)
Theorem partial_descriptors layer model config :
  Forall (fun d => module d = None /\ weight d = None /\ is_Some (bias d))
    (copy_to_all layer config) /\
  Forall (fun d => is_Some (module d) /\ is_Some (weight d) /\ bias d = None)
    (attn_qkv layer config ++ attn_out layer config
       ++ word_embedding model config) /\
  bias <$> copy_to_all layer config
    = [Some (attn_bias (attn layer)); Some (masked_bias (attn layer))] /\
  module <$> (attn_qkv layer config ++ attn_out layer config
                ++ word_embedding model config)
    = [ Some (Module_Linear (q_proj (attn layer)));
        Some (Module_Linear (k_proj (attn layer)));
        Some (Module_Linear (v_proj (attn layer)));
        Some (Module_Linear (out_proj (attn layer)));
        Some (Module_Embedding (wte model)) ].
Proof.
  split; [| split; [| split; reflexivity]];
    repeat (apply Forall_cons; split; [repeat split; eauto |]);
    apply Forall_nil_2.
Qed.

End Descriptors.

(** C7. [fused_modules] has exactly two entries: GPTJAttention is mapped
    to FusedGPTJAttention and GPTJMLP to FusedGPTJMLP. *)
Theorem fused_modules_table :
  (forall k v, fused_modules !! k = Some v <->
     (k = GPTJAttention /\ v = FusedGPTJAttention) \/
     (k = GPTJMLP /\ v = FusedGPTJMLP)) /\
  dom fused_modules = ({[ GPTJAttention; GPTJMLP ]} : gset ModuleType) /\
  size fused_modules = 2%nat.
Proof.
  split; [| split].
  - intros k v. unfold fused_modules. split.
    + intros H.
      destruct (decide (k = GPTJAttention)) as [-> | Hk1].
      * rewrite lookup_insert_eq in H. left. split; congruence.
      * rewrite lookup_insert_ne in H by congruence.
        destruct (decide (k = GPTJMLP)) as [-> | Hk2].
        -- rewrite lookup_singleton_eq in H. right. split; congruence.
        -- rewrite lookup_singleton_ne in H by congruence. discriminate.
    + intros [[-> ->] | [-> ->]]; reflexivity.
  - unfold fused_modules. rewrite dom_insert_L, dom_singleton_L. reflexivity.
  - unfold fused_modules.
    rewrite map_size_insert_None by reflexivity.
    rewrite map_size_singleton. reflexivity.
Qed.

Section Shards.
Context {scalar : Type}.

Local Open Scope nat_scope.

Implicit Types (t : Tensor scalar) (lin : Linear scalar).
Implicit Types (tree : gmap string (Node scalar)).

(** Consecutive chunks of [k] elements, laid end to end, are a prefix. *)
Lemma concat_chunks {A : Type} (l : list A) (k n : nat) :
  concat (map (fun r => take ((r + 1) * k - r * k) (drop (r * k) l)) (seq 0 n))
  = take (n * k) l.
Proof.
  induction n as [| n IH].
  - reflexivity.
  - rewrite seq_S, map_app, concat_app, IH. cbn [map concat Nat.add].
    rewrite app_nil_r.
    replace ((n + 1) * k - n * k) with k by lia.
    replace (S n * k) with (n * k + k) by lia.
    apply take_take_drop.
Qed.

Lemma rows_column_shard world_size rank t :
  rows (column_shard world_size rank t) =
  take ((rank + 1) * (length (rows t) / world_size)
        - rank * (length (rows t) / world_size))
       (drop (rank * (length (rows t) / world_size)) (rows t)).
Proof. reflexivity. Qed.

Lemma divides_exact (n w : nat) : n mod w = 0 -> w * (n / w) = n.
Proof.
  intros H. destruct w as [| w].
  - cbn in *. lia.
  - pose proof (Nat.div_mod_eq n (S w)). lia.
Qed.

(** C6. When the world size divides the number of weight rows, rank
    [r] holds the rows from [r * (n / world_size)] up to
    [(r+1) * (n / world_size)], that is [n / world_size] rows, and the
    shards of ranks 0, ..., world_size - 1 concatenated in this order
    are the weight tensor. *)
Theorem column_shards_concat (weight_rows : list (Tensor scalar))
    (world_size : nat) :
  length weight_rows mod world_size = 0 ->
  (forall rank,
      column_slice (length weight_rows) world_size rank =
        (rank * (length weight_rows / world_size),
         (rank + 1) * (length weight_rows / world_size))) /\
  (forall rank, rank < world_size ->
      length (rows (column_shard world_size rank (Stack weight_rows)))
      = length weight_rows / world_size) /\
  cat ((fun rank => column_shard world_size rank (Stack weight_rows))
         <$> seq 0 world_size)
  = Stack weight_rows.
Proof.
  intros Hdiv. pose proof (divides_exact _ _ Hdiv) as Hex.
  split; [reflexivity | split].
  - intros rank Hr. rewrite rows_column_shard. cbn [rows].
    rewrite length_take, length_drop. nia.
  - unfold cat. f_equal.
    change (@fmap list _) with (@map) at 1.
    rewrite map_map.
    erewrite map_ext; [| intros r; apply rows_column_shard].
    cbn [rows]. rewrite concat_chunks.
    apply take_ge. lia.
Qed.

Lemma shape_check_rejects world_size tree keys key lin :
  key ∈ keys ->
  tree !! key = Some (Dense lin) ->
  out_features lin mod world_size <> 0 ->
  shape_check world_size tree keys = false.
Proof.
  intros Hin Hk Hrem.
  destruct (shape_check world_size tree keys) eqn:E; [| reflexivity].
  unfold shape_check in E. rewrite forallb_forall in E.
  apply list_elem_of_In in Hin.
  specialize (E key Hin). cbn beta in E. rewrite Hk in E.
  apply Nat.eqb_eq in E. contradiction.
Qed.

(** C5. When the world size does not divide the output features of a
    linear operator, building its column-parallel shard fails with a
    ShapeError, and a sharding pass that meets this operator fails
    with a ShapeError and returns the module tree as it found it. *)
Theorem column_parallel_shape_error lin (rank world_size : nat)
    tree (keys : list string) (key : string) :
  out_features lin mod world_size <> 0 ->
  ColumnParallelLinear_of lin rank world_size = inl ShapeError /\
  (key ∈ keys -> tree !! key = Some (Dense lin) ->
   shard_columns rank world_size keys tree = (tree, inl ShapeError)).
Proof.
  intros Hrem. split.
  - unfold ColumnParallelLinear_of.
    destruct (Nat.eqb_spec (out_features lin mod world_size) 0);
      [contradiction | reflexivity].
  - intros Hin Hk. unfold shard_columns.
    rewrite (shape_check_rejects _ _ _ _ _ Hin Hk Hrem). reflexivity.
Qed.

End Shards.

Lemma column_shards_concat_witness :
  cat ((fun rank => column_shard 2 rank (linear_weight dense_4x2)) <$> seq 0 2)
  = linear_weight dense_4x2.
Proof.
  apply (column_shards_concat (rows (linear_weight dense_4x2)) 2).
  reflexivity.
Defined.

Lemma column_parallel_shape_error_witness :
  ColumnParallelLinear_of dense_3x1 0 2 = inl ShapeError /\
  shard_columns 0 2 ["fc_in"; "q_proj"]%string
      {[ "q_proj"%string := Dense dense_3x1; "fc_in"%string := Dense dense_4x2 ]}
  = ({[ "q_proj"%string := Dense dense_3x1; "fc_in"%string := Dense dense_4x2 ]},
     inl ShapeError).
Proof.
  destruct (column_parallel_shape_error dense_3x1 0 2
              {[ "q_proj"%string := Dense dense_3x1;
                 "fc_in"%string := Dense dense_4x2 ]}
              ["fc_in"; "q_proj"]%string "q_proj"%string) as [Hnew Hpass].
  - vm_compute. discriminate.
  - split; [exact Hnew |].
    apply Hpass; [set_solver | reflexivity].
Defined.

(** * Further properties of [reduce_arguments] *)

Section ReduceArgumentsMore.
Context {scalar : Type}.

Implicit Types (layer : Block scalar).
Implicit Types (config : GPTJConfig) (world_size : Z).

(** The call raises exactly for a world size of zero, and then with
    ZeroDivisionError at the first assignment: the block is left as it
    was, neither attribute is stored.  For every other world size it
    returns; it never raises AttributeError. *)
Theorem reduce_arguments_raises_iff_zero layer world_size config :
  (snd (reduce_arguments layer world_size config) = inl ZeroDivisionError
     <-> world_size = 0) /\
  (world_size = 0 -> fst (reduce_arguments layer world_size config) = layer) /\
  (world_size <> 0 -> snd (reduce_arguments layer world_size config) = inr tt) /\
  (forall name,
      snd (reduce_arguments layer world_size config) <> inl (AttributeError name)).
Proof.
  destruct (Z.eq_dec world_size 0) as [-> | Hw].
  - rewrite reduce_arguments_raises. cbn.
    repeat split; try congruence; try discriminate.
  - rewrite reduce_arguments_returns by assumption. cbn.
    repeat split; try congruence; try discriminate.
Qed.

(** A negative world size is not rejected: the call returns and stores
    the floor quotients, which Python rounds towards minus infinity
    also for a negative divisor. *)
Theorem reduce_arguments_negative_world_size layer world_size config :
  world_size < 0 ->
  let layer' := fst (reduce_arguments layer world_size config) in
  snd (reduce_arguments layer world_size config) = inr tt /\
  world_size * (embed_dim (attn layer') + 1) < n_embd config
    <= world_size * embed_dim (attn layer') /\
  world_size * (num_attention_heads (attn layer') + 1) < n_head config
    <= world_size * num_attention_heads (attn layer').
Proof.
  intros Hw layer'. subst layer'.
  rewrite reduce_arguments_returns by lia. cbn.
  pose proof (Z.div_mod (n_embd config) world_size ltac:(lia)).
  pose proof (Z.mod_neg_bound (n_embd config) world_size Hw).
  pose proof (Z.div_mod (n_head config) world_size ltac:(lia)).
  pose proof (Z.mod_neg_bound (n_head config) world_size Hw).
  repeat split; lia.
Qed.

(** The attributes a returning call stores do not depend on what the
    block held before: after any earlier call, with any world size and
    any configuration, a call with a world size other than zero gives
    what it gives on the original block. *)
Theorem reduce_arguments_last_call_wins layer world_size config
    world_size' config' :
  world_size <> 0 ->
  reduce_arguments (fst (reduce_arguments layer world_size' config'))
                   world_size config
  = reduce_arguments layer world_size config.
Proof.
  intros Hw.
  destruct (Z.eq_dec world_size' 0) as [-> | Hw'].
  - rewrite (reduce_arguments_raises layer config'). reflexivity.
  - rewrite (reduce_arguments_returns layer world_size' config') by assumption.
    cbn [fst].
    rewrite !reduce_arguments_returns by assumption. reflexivity.
Qed.

(** The stored quotients give back hidden_size and n_head when
    multiplied by the world size exactly when the world size divides
    their greatest common divisor; otherwise something is lost. *)
Theorem reduce_arguments_exact_iff_divides layer world_size config :
  world_size <> 0 ->
  let layer' := fst (reduce_arguments layer world_size config) in
  (world_size * embed_dim (attn layer') = n_embd config /\
   world_size * num_attention_heads (attn layer') = n_head config)
  <-> (world_size | Z.gcd (n_embd config) (n_head config)).
Proof.
  intros Hw layer'. subst layer'.
  rewrite reduce_arguments_returns by assumption. cbn.
  rewrite Z.gcd_divide_iff.
  rewrite <- !(Z.mod_divide _ world_size) by assumption.
  rewrite <- !(Z.div_exact _ world_size) by assumption.
  split; intros [H1 H2]; split; congruence.
Qed.

(** When the world size divides both hidden_size and n_head, the width
    per head computed from the stored attributes is the one of the
    configuration: embed_dim // num_attention_heads is unchanged. *)
Theorem reduce_arguments_keeps_head_width layer world_size config :
  world_size <> 0 ->
  n_head config <> 0 ->
  (world_size | n_embd config) ->
  (world_size | n_head config) ->
  let layer' := fst (reduce_arguments layer world_size config) in
  num_attention_heads (attn layer') <> 0 /\
  embed_dim (attn layer') / num_attention_heads (attn layer')
  = n_embd config / n_head config.
Proof.
  intros Hw Hn He Hh layer'. subst layer'.
  rewrite reduce_arguments_returns by assumption. cbn.
  apply Z.mod_divide in He, Hh; try assumption.
  apply Z.div_exact in He, Hh; try assumption.
  assert (Hq : n_head config / world_size <> 0) by (intros E; rewrite E in Hh; lia).
  split; [exact Hq |].
  rewrite He at 2. rewrite Hh at 2.
  rewrite Z.div_mul_cancel_l by assumption. reflexivity.
Qed.

(** The descriptors of a block name the same modules and tensors before
    and after [reduce_arguments], whatever the world size, and they do
    not depend on the configuration they are asked with. *)
Theorem descriptors_survive_reduce_arguments layer world_size config
    config' config'' :
  block_descriptors (fst (reduce_arguments layer world_size config)) config'
  = block_descriptors layer config''.
Proof.
  destruct (Z.eq_dec world_size 0) as [-> | Hw].
  - rewrite reduce_arguments_raises. reflexivity.
  - rewrite reduce_arguments_returns by assumption. reflexivity.
Qed.

End ReduceArgumentsMore.

Lemma reduce_arguments_negative_world_size_witness :
  snd (reduce_arguments small_block (-4) GPTJConfig_default) = inr tt /\
  embed_dim (attn (fst (reduce_arguments small_block (-4) GPTJConfig_default)))
  = -1024.
Proof.
  destruct (reduce_arguments_negative_world_size small_block (-4)
              GPTJConfig_default) as (Hret & _ & _); [lia |].
  split; [exact Hret | reflexivity].
Defined.

Lemma reduce_arguments_last_call_wins_witness :
  reduce_arguments (fst (reduce_arguments small_block 3 GPTJConfig_default))
                   4 GPTJConfig_default
  = reduce_arguments small_block 4 GPTJConfig_default.
Proof.
  apply (reduce_arguments_last_call_wins small_block 4 GPTJConfig_default
           3 GPTJConfig_default).
  lia.
Defined.

Lemma reduce_arguments_exact_iff_divides_witness :
  (3 * embed_dim (attn (fst (reduce_arguments small_block 3 GPTJConfig_default)))
     = 4096 /\
   3 * num_attention_heads
         (attn (fst (reduce_arguments small_block 3 GPTJConfig_default))) = 16)
  <-> (3 | Z.gcd 4096 16).
Proof.
  apply (reduce_arguments_exact_iff_divides small_block 3 GPTJConfig_default).
  lia.
Defined.

Lemma reduce_arguments_keeps_head_width_witness :
  embed_dim (attn (fst (reduce_arguments small_block 4 GPTJConfig_default)))
    / num_attention_heads
        (attn (fst (reduce_arguments small_block 4 GPTJConfig_default)))
  = 256.
Proof.
  destruct (reduce_arguments_keeps_head_width small_block 4 GPTJConfig_default)
    as [_ Hw].
  - lia.
  - cbn. lia.
  - exists 1024. reflexivity.
  - exists 4. reflexivity.
  - exact Hw.
Defined.

(** * Invariants of the descriptors of a whole model *)

Section ModelDescriptors.
Context {scalar : Type}.

Implicit Types (layer : Block scalar) (model : Model scalar).
Implicit Types (config : GPTJConfig) (d : Layer scalar).

Lemma Forall_model_descriptors (P : Layer scalar -> Prop) model config :
  Forall P (word_embedding model config) ->
  (forall layer, Forall P (block_descriptors layer config)) ->
  Forall P (postblock_layers model config) ->
  Forall P (model_descriptors model config).
Proof.
  intros Hw Hb Hp. unfold model_descriptors.
  apply Forall_app; split; [exact Hw |].
  apply Forall_app; split; [| exact Hp].
  apply Forall_flat_map, Forall_forall. intros layer _. apply Hb.
Qed.

Local Ltac each_descriptor tac :=
  repeat (apply Forall_cons; split; [tac |]); apply Forall_nil_2.

(** Every descriptor of a model carries the tensors of its own module:
    its weight is that module's weight and its bias, when present, that
    module's bias; the descriptors of buffers carry no weight. *)
Theorem descriptors_own_their_tensors model config :
  Forall owns_its_tensors (model_descriptors model config).
Proof.
  apply Forall_model_descriptors; [| intros layer |];
    each_descriptor ltac:(unfold owns_its_tensors; cbn; auto).
Qed.

Lemma substituted_descriptor (m : Module scalar) w b (c : ModuleType) :
  c = ColumnParallelLinear \/ c = RowParallelLinear
    \/ c = VocabParallelEmbedding ->
  replicated_or_substituted
    (new_Layer (Some m) w b None (Some {[ class_of m := c ]})).
Proof.
  intros Hc. unfold replicated_or_substituted, substitution. cbn.
  rewrite lookup_singleton_eq.
  repeat split; try discriminate.
  - intros r [= <-]. exists m. split; [reflexivity |]. apply dom_singleton_L.
  - intros c' [= <-]. exact Hc.
Qed.

Lemma replicated_descriptor (m : option (Module scalar)) w b :
  replicated_or_substituted (new_Layer m w b (Some false) None).
Proof.
  unfold replicated_or_substituted, substitution. cbn.
  repeat split; try discriminate; destruct m; try reflexivity; discriminate.
Qed.

(** Every descriptor of a model is either replicated or substituted:
    without a [replace] mapping it is marked parallel=False, with one
    the mapping is keyed by the class of its own module and leads to
    ColumnParallelLinear, RowParallelLinear or VocabParallelEmbedding. *)
Theorem descriptors_replicated_or_substituted model config :
  Forall replicated_or_substituted (model_descriptors model config).
Proof.
  apply Forall_model_descriptors; [| intros layer |];
    each_descriptor
      ltac:(first [ apply replicated_descriptor
                  | apply (substituted_descriptor (Module_Linear _)); auto
                  | apply (substituted_descriptor (Module_Embedding _)); auto ]).
Qed.

(** A model of n blocks gives 9 n + 2 descriptors; 6 n + 1 of them ask
    for a substitution and 3 n + 1 do not. *)
Theorem model_descriptor_count model config :
  length (model_descriptors model config)
    = (9 * length (block_layers model config) + 2)%nat /\
  length (List.filter has_replace (model_descriptors model config))
    = (6 * length (block_layers model config) + 1)%nat /\
  length (List.filter (fun d => negb (has_replace d))
            (model_descriptors model config))
    = (3 * length (block_layers model config) + 1)%nat.
Proof.
  unfold model_descriptors, block_layers.
  induction (h model) as [| layer blocks IH].
  - repeat split; reflexivity.
  - destruct IH as (IH1 & IH2 & IH3).
    cbn [flat_map].
    rewrite ?List.filter_app, ?length_app in *.
    cbn [length] in *.
    change (length (block_descriptors layer config)) with 9%nat.
    change (length (List.filter has_replace (block_descriptors layer config)))
      with 6%nat.
    change (length (List.filter (fun d => negb (has_replace d))
                      (block_descriptors layer config))) with 3%nat.
    cbn [word_embedding postblock_layers List.filter new_Layer has_replace
         replace negb length] in *.
    repeat split; lia.
Qed.

End ModelDescriptors.

(** * The configuration: aliases *)

Local Open Scope string_scope.

(** The entries of [attribute_map], read back through [dict_get]. *)
Lemma dict_get_attribute_map (key name : string) :
  dict_get attribute_map key = Some name ->
  (key = "max_position_embeddings" /\ name = "n_positions") \/
  (key = "hidden_size" /\ name = "n_embd") \/
  (key = "num_attention_heads" /\ name = "n_head") \/
  (key = "num_hidden_layers" /\ name = "n_layer").
Proof.
  unfold attribute_map. cbn [dict_get].
  repeat (match goal with
          | |- context [String.eqb ?a key] =>
              destruct (String.eqb_spec a key) as [<- | ?]
          end;
          [intros [= <-]; auto 6 |]).
  discriminate.
Qed.

(** Reading an alias is reading the attribute it stands for, for every
    entry of [attribute_map], and it never raises: no alias points to a
    name the instance lacks. *)
Theorem alias_reads_target (config : GPTJConfig) (alias name : string) :
  dict_get attribute_map alias = Some name ->
  getattr config alias = getattr config name /\
  exists v, getattr config alias = inr v.
Proof.
  intros H.
  destruct (dict_get_attribute_map _ _ H)
    as [[-> ->] | [[-> ->] | [[-> ->] | [-> ->]]]];
    (split; [reflexivity | eexists; reflexivity]).
Qed.

Lemma alias_reads_target_witness :
  getattr GPTJConfig_default "num_hidden_layers"
  = getattr GPTJConfig_default "n_layer" /\
  exists v, getattr GPTJConfig_default "num_hidden_layers" = inr v.
Proof.
  apply (alias_reads_target GPTJConfig_default "num_hidden_layers" "n_layer").
  reflexivity.
Defined.

(** [attribute_map] renames in one step and without clashes: the name an
    alias stands for is not itself an alias, two aliases never stand for
    the same name, and so resolving a resolved name changes nothing. *)
Theorem attribute_map_one_step :
  (forall key name,
      dict_get attribute_map key = Some name ->
      dict_get attribute_map name = None) /\
  (forall key key' name,
      dict_get attribute_map key = Some name ->
      dict_get attribute_map key' = Some name ->
      key = key') /\
  (forall key, resolve_attribute (resolve_attribute key) = resolve_attribute key).
Proof.
  assert (Hstep : forall key name,
             dict_get attribute_map key = Some name ->
             dict_get attribute_map name = None).
  { intros key name H.
    destruct (dict_get_attribute_map _ _ H)
      as [[-> ->] | [[-> ->] | [[-> ->] | [-> ->]]]]; reflexivity. }
  split; [exact Hstep | split].
  - intros key key' name H H'.
    destruct (dict_get_attribute_map _ _ H)
      as [[-> ->] | [[-> ->] | [[-> ->] | [-> ->]]]];
      destruct (dict_get_attribute_map _ _ H')
        as [[-> E] | [[-> E] | [[-> E] | [-> E]]]];
      first [reflexivity | discriminate E].
  - intros key. unfold resolve_attribute.
    destruct (dict_get attribute_map key) as [name |] eqn:E;
      cbn [from_option id].
    + rewrite (Hstep _ _ E). reflexivity.
    + rewrite E. reflexivity.
Qed.

Local Close Scope string_scope.

(** * The table of fused modules *)

(** Fusion is one step and loses no distinction: a fused class is not a
    key of [fused_modules] again, two classes are never fused into the
    same class, and the block class, by which the blocks are found, is
    not itself fused. *)
Theorem fused_modules_one_step :
  (forall k v, fused_modules !! k = Some v ->
     fused_modules !! v = None /\ k <> v) /\
  (forall k k' v, fused_modules !! k = Some v ->
     fused_modules !! k' = Some v -> k = k') /\
  fused_modules !! original_layer_class = None.
Proof.
  assert (Hcases : forall k v, fused_modules !! k = Some v ->
            (k = GPTJAttention /\ v = FusedGPTJAttention) \/
            (k = GPTJMLP /\ v = FusedGPTJMLP)).
  { intros k v H. unfold fused_modules in H.
    destruct (decide (k = GPTJAttention)) as [-> | Hk1].
    - rewrite lookup_insert_eq in H. left. split; congruence.
    - rewrite lookup_insert_ne in H by congruence.
      destruct (decide (k = GPTJMLP)) as [-> | Hk2].
      + rewrite lookup_singleton_eq in H. right. split; congruence.
      + rewrite lookup_singleton_ne in H by congruence. discriminate. }
  split; [| split].
  - intros k v H. destruct (Hcases _ _ H) as [[-> ->] | [-> ->]];
      (split; [reflexivity | discriminate]).
  - intros k k' v H H'.
    destruct (Hcases _ _ H) as [[-> ->] | [-> ->]];
      destruct (Hcases _ _ H') as [[-> E] | [-> E]];
      first [reflexivity | discriminate E].
  - reflexivity.
Qed.

(** * Sharding in place *)

Section InPlaceProperties.
Context {scalar : Type}.

Implicit Types (layer : Block scalar) (model : Model scalar).
Implicit Types (config : GPTJConfig) (d : Layer scalar).
Implicit Types (tree : gmap ModulePath (TreeNode scalar)).
Implicit Types (sites : list (ModulePath * Layer scalar)).
Implicit Types (rank world_size : nat) (p : ModulePath).

(** ** The module tree of a model *)

Lemma lookup_block_nodes i layer p :
  block_nodes i layer !! p =
  match p with
  | path_h j slot =>
      if decide (j = i) then Some (dense (slot_module layer slot)) else None
  | _ => None
  end.
Proof.
  unfold block_nodes. destruct p as [| j slot |].
  - repeat (rewrite lookup_insert_ne by discriminate). apply lookup_empty.
  - destruct (decide (j = i)) as [-> | Hne].
    + destruct slot;
        repeat first [ rewrite lookup_insert_eq; reflexivity
                     | rewrite lookup_insert_ne by discriminate ].
    + repeat (rewrite lookup_insert_ne by congruence). apply lookup_empty.
  - repeat (rewrite lookup_insert_ne by discriminate). apply lookup_empty.
Qed.

Lemma lookup_blocks_nodes (blocks : list (Block scalar)) start p :
  blocks_nodes start blocks !! p =
  match p with
  | path_h j slot =>
      if decide (start <= j)%nat
      then (fun layer => dense (slot_module layer slot))
             <$> blocks !! (j - start)%nat
      else None
  | _ => None
  end.
Proof.
  revert start. induction blocks as [| layer blocks IH]; intros start.
  - cbn [blocks_nodes]. rewrite lookup_empty.
    destruct p as [| j slot |]; try reflexivity.
    destruct (decide (start <= j)%nat); reflexivity.
  - cbn [blocks_nodes]. rewrite lookup_union, lookup_block_nodes, IH.
    destruct p as [| j slot |]; try reflexivity.
    repeat case_decide; subst; try lia.
    + rewrite Nat.sub_diag. reflexivity.
    + replace (j - start)%nat with (S (j - S start)) by lia.
      cbn. destruct (blocks !! (j - S start)%nat); reflexivity.
    + reflexivity.
Qed.

Lemma lookup_module_tree model p :
  module_tree model !! p =
  match p with
  | path_wte => Some (dense (Module_Embedding (wte model)))
  | path_h j slot =>
      (fun layer => dense (slot_module layer slot)) <$> h model !! j
  | path_ln_f => Some (dense (Module_LayerNorm (ln_f model)))
  end.
Proof.
  unfold module_tree. destruct p as [| j slot |].
  - apply lookup_insert_eq.
  - rewrite !lookup_insert_ne by discriminate.
    rewrite lookup_blocks_nodes, decide_True by lia.
    rewrite Nat.sub_0_r. reflexivity.
  - rewrite lookup_insert_ne by discriminate. apply lookup_insert_eq.
Qed.

(** ** A pass that passes the shape check *)

Lemma apply_descriptors_unchecked rank world_size sites tree :
  shapes_fit rank world_size sites = true ->
  apply_descriptors rank world_size sites tree
  = (foldl (apply_unchecked rank world_size) tree sites, inr tt).
Proof.
  revert tree. induction sites as [| site sites IH]; intros tree Hfit.
  - reflexivity.
  - cbn [shapes_fit forallb] in Hfit. apply andb_prop in Hfit as [Hsite Hrest].
    cbn [apply_descriptors foldl].
    unfold apply_descriptor, apply_unchecked at 2.
    destruct (replacement rank world_size site.2) as [[e | node] |];
      [discriminate Hsite | |]; apply IH; exact Hrest.
Qed.

Lemma lookup_apply_unchecked_ne rank world_size tree site p :
  p <> site.1 ->
  apply_unchecked rank world_size tree site !! p = tree !! p.
Proof.
  intros Hne. unfold apply_unchecked.
  destruct (replacement rank world_size site.2) as [[e | node] |];
    try reflexivity.
  apply lookup_insert_ne. congruence.
Qed.

(** A pass leaves every node alone that none of its descriptors names. *)
Lemma lookup_pass_elsewhere rank world_size sites tree p :
  p ∉ sites.*1 ->
  foldl (apply_unchecked rank world_size) tree sites !! p = tree !! p.
Proof.
  revert tree. induction sites as [| site sites IH]; intros tree Hp.
  - reflexivity.
  - cbn [foldl]. rewrite fmap_cons in Hp. apply not_elem_of_cons in Hp as [Hne Hp].
    rewrite IH by exact Hp. apply lookup_apply_unchecked_ne. exact Hne.
Qed.

(** A pass over nodes of the tree neither adds nor removes a node. *)
Lemma dom_pass rank world_size sites tree :
  Forall (fun site => is_Some (tree !! site.1)) sites ->
  dom (foldl (apply_unchecked rank world_size) tree sites) = dom tree.
Proof.
  revert tree. induction sites as [| site sites IH]; intros tree Hin.
  - reflexivity.
  - apply Forall_cons in Hin as [Hsite Hin]. cbn [foldl].
    assert (Hdom : dom (apply_unchecked rank world_size tree site) = dom tree).
    { unfold apply_unchecked.
      destruct (replacement rank world_size site.2) as [[e | node] |];
        try reflexivity.
      rewrite dom_insert_L. apply subseteq_union_1_L, singleton_subseteq_l.
      apply elem_of_dom. exact Hsite. }
    rewrite IH; [exact Hdom |].
    eapply Forall_impl; [exact Hin |].
    intros site' Hs. cbn beta in *.
    rewrite <- !elem_of_dom in *. rewrite Hdom. exact Hs.
Qed.

(** ** The places the policy names *)

Lemma blocks_sites_app (blocks blocks' : list (Block scalar)) start config :
  blocks_sites start (blocks ++ blocks') config
  = blocks_sites start blocks config
    ++ blocks_sites (start + length blocks) blocks' config.
Proof.
  revert start. induction blocks as [| layer blocks IH]; intros start.
  - cbn. rewrite Nat.add_0_r. reflexivity.
  - cbn [app blocks_sites length]. rewrite IH, <- app_assoc.
    replace (S start + length blocks)%nat with (start + S (length blocks))%nat
      by lia.
    reflexivity.
Qed.

Lemma block_sites_paths i layer config :
  (block_sites i layer config).*1
  = path_h i <$> [slot_q_proj; slot_k_proj; slot_v_proj; slot_out_proj;
                   slot_ln_1; slot_fc_in; slot_fc_out].
Proof. reflexivity. Qed.

Lemma blocks_sites_range (blocks : list (Block scalar)) start config p :
  p ∈ (blocks_sites start blocks config).*1 ->
  exists j slot,
    p = path_h j slot /\ (start <= j < start + length blocks)%nat.
Proof.
  revert start. induction blocks as [| layer blocks IH]; intros start Hp.
  - cbn in Hp. apply elem_of_nil in Hp. contradiction.
  - cbn [blocks_sites] in Hp. rewrite fmap_app in Hp.
    apply elem_of_app in Hp as [Hp | Hp].
    + rewrite block_sites_paths in Hp.
      apply list_elem_of_fmap in Hp as (slot & -> & _).
      exists start, slot. cbn [length]. split; [reflexivity | lia].
    + destruct (IH _ Hp) as (j & slot & -> & Hj).
      exists j, slot. cbn [length]. split; [reflexivity | lia].
Qed.

Lemma not_in_blocks_sites (blocks : list (Block scalar)) start config p :
  (forall j slot, p = path_h j slot ->
     ~ (start <= j < start + length blocks)%nat) ->
  p ∉ (blocks_sites start blocks config).*1.
Proof.
  intros Hout Hin.
  destruct (blocks_sites_range _ _ _ _ Hin) as (j & slot & -> & Hj).
  exact (Hout j slot eq_refl Hj).
Qed.

(** ** What each descriptor of the policy puts in place *)

Lemma replacement_column rank world_size (lin : Linear scalar) w b :
  (out_features lin mod world_size = 0)%nat ->
  replacement rank world_size
    (new_Layer (Some (Module_Linear lin)) w b None
               (Some {[ nn_Linear := ColumnParallelLinear ]}))
  = Some (inr (mkTreeNode ColumnParallelLinear
                 (Module_Linear (column_parallel world_size rank lin)))).
Proof.
  intros Hdiv. unfold replacement, substitution.
  cbn [new_Layer module replace mbind option_bind class_of].
  rewrite lookup_singleton_eq.
  cbn [parallel_module]. unfold ColumnParallelLinear_of.
  rewrite Hdiv. reflexivity.
Qed.

Lemma replacement_row rank world_size (lin : Linear scalar) w b :
  (in_features lin mod world_size = 0)%nat ->
  replacement rank world_size
    (new_Layer (Some (Module_Linear lin)) w b None
               (Some {[ nn_Linear := RowParallelLinear ]}))
  = Some (inr (mkTreeNode RowParallelLinear
                 (Module_Linear (row_parallel world_size rank lin)))).
Proof.
  intros Hdiv. unfold replacement, substitution.
  cbn [new_Layer module replace mbind option_bind class_of].
  rewrite lookup_singleton_eq.
  cbn [parallel_module]. unfold RowParallelLinear_of.
  rewrite Hdiv. reflexivity.
Qed.

Lemma replacement_vocab rank world_size (emb : Embedding scalar) w b :
  (num_embeddings emb mod world_size = 0)%nat ->
  replacement rank world_size
    (new_Layer (Some (Module_Embedding emb)) w b None
               (Some {[ nn_Embedding := VocabParallelEmbedding ]}))
  = Some (inr (mkTreeNode VocabParallelEmbedding
                 (Module_Embedding (vocab_parallel world_size rank emb)))).
Proof.
  intros Hdiv. unfold replacement, substitution.
  cbn [new_Layer module replace mbind option_bind class_of].
  rewrite lookup_singleton_eq.
  cbn [parallel_module]. unfold VocabParallelEmbedding_of.
  rewrite Hdiv. reflexivity.
Qed.

Lemma replacement_replicated rank world_size (m : option (Module scalar)) w b :
  replacement rank world_size (new_Layer m w b (Some false) None) = None.
Proof. unfold replacement, substitution. destruct m; reflexivity. Qed.

(** The tree after the descriptors of one block. *)
Lemma block_pass rank world_size i layer config tree :
  block_divisible world_size layer ->
  foldl (apply_unchecked rank world_size) tree (block_sites i layer config)
  = <[path_h i slot_fc_out :=
        mkTreeNode RowParallelLinear
          (Module_Linear (row_parallel world_size rank (fc_out (mlp layer))))]>
    (<[path_h i slot_fc_in :=
        mkTreeNode ColumnParallelLinear
          (Module_Linear (column_parallel world_size rank (fc_in (mlp layer))))]>
    (<[path_h i slot_out_proj :=
        mkTreeNode RowParallelLinear
          (Module_Linear (row_parallel world_size rank (out_proj (attn layer))))]>
    (<[path_h i slot_v_proj :=
        mkTreeNode ColumnParallelLinear
          (Module_Linear (column_parallel world_size rank (v_proj (attn layer))))]>
    (<[path_h i slot_k_proj :=
        mkTreeNode ColumnParallelLinear
          (Module_Linear (column_parallel world_size rank (k_proj (attn layer))))]>
    (<[path_h i slot_q_proj :=
        mkTreeNode ColumnParallelLinear
          (Module_Linear (column_parallel world_size rank (q_proj (attn layer))))]>
     tree))))).
Proof.
  intros (Hq & Hk & Hv & Ho & Hi & Hf).
  unfold block_sites, attn_qkv, attn_out, attn_norm, mlp_in, mlp_out.
  cbn [zip zip_with app foldl]. unfold apply_unchecked. cbn [fst snd].
  rewrite !replacement_column, !replacement_row, replacement_replicated
    by assumption.
  reflexivity.
Qed.

Lemma shapes_fit_app rank world_size sites sites' :
  shapes_fit rank world_size (sites ++ sites')
  = shapes_fit rank world_size sites && shapes_fit rank world_size sites'.
Proof. apply forallb_app. Qed.

Lemma shapes_fit_block rank world_size i layer config :
  block_divisible world_size layer ->
  shapes_fit rank world_size (block_sites i layer config) = true.
Proof.
  intros (Hq & Hk & Hv & Ho & Hi & Hf).
  unfold block_sites, attn_qkv, attn_out, attn_norm, mlp_in, mlp_out, shapes_fit.
  cbn [zip zip_with app forallb fst snd].
  rewrite !replacement_column, !replacement_row, replacement_replicated
    by assumption.
  reflexivity.
Qed.

Lemma shapes_fit_blocks rank world_size (blocks : list (Block scalar))
    start config :
  Forall (block_divisible world_size) blocks ->
  shapes_fit rank world_size (blocks_sites start blocks config) = true.
Proof.
  intros Hall. revert start.
  induction Hall as [| layer blocks Hlayer _ IH]; intros start.
  - reflexivity.
  - cbn [blocks_sites]. rewrite shapes_fit_app, shapes_fit_block, IH by assumption.
    reflexivity.
Qed.

(** ** The pass over a model *)

Lemma model_sites_split model config :
  model_sites model config
  = [(path_wte,
      new_Layer (Some (Module_Embedding (wte model)))
                (Some (embedding_weight (wte model))) None None
                (Some {[ nn_Embedding := VocabParallelEmbedding ]}))]
    ++ blocks_sites 0 (h model) config
    ++ [(path_ln_f,
         new_Layer (Some (Module_LayerNorm (ln_f model)))
                   (Some (norm_weight (ln_f model)))
                   (Some (norm_bias (ln_f model))) (Some false) None)].
Proof. reflexivity. Qed.

Lemma shapes_fit_model rank world_size model config :
  model_divisible world_size model ->
  shapes_fit rank world_size (model_sites model config) = true.
Proof.
  intros [Hvocab Hblocks].
  rewrite model_sites_split, !shapes_fit_app, shapes_fit_blocks by assumption.
  unfold shapes_fit. cbn [forallb fst snd].
  rewrite replacement_vocab, replacement_replicated by assumption.
  reflexivity.
Qed.

(** Every descriptor of a block sits at the place of the module it
    carries. *)
Lemma blocks_sites_modules (blocks : list (Block scalar)) start config :
  Forall (fun site =>
            exists j slot layer,
              site.1 = path_h j slot /\ (start <= j)%nat /\
              blocks !! (j - start)%nat = Some layer /\
              module site.2 = Some (slot_module layer slot))
         (blocks_sites start blocks config).
Proof.
  revert start. induction blocks as [| layer blocks IH]; intros start.
  - constructor.
  - cbn [blocks_sites]. apply Forall_app. split.
    + unfold block_sites, attn_qkv, attn_out, attn_norm, mlp_in, mlp_out.
      cbn [zip zip_with app].
      repeat (apply Forall_cons; split;
              [eexists start, _, layer;
               rewrite Nat.sub_diag; repeat split; first [reflexivity | lia] |]).
      apply Forall_nil_2.
    + eapply Forall_impl; [apply (IH (S start)) |].
      intros site (j & slot & layer' & Hp & Hj & Hl & Hm).
      exists j, slot, layer'. repeat split; try assumption; try lia.
      replace (j - start)%nat with (S (j - S start)) by lia. exact Hl.
Qed.

Lemma model_sites_modules model config :
  Forall (fun site =>
            exists node,
              module_tree model !! site.1 = Some node /\
              module site.2 = Some (node_module node))
         (model_sites model config).
Proof.
  rewrite model_sites_split. apply Forall_app. split; [| apply Forall_app; split].
  - apply Forall_cons. split; [| apply Forall_nil_2].
    cbn [fst snd]. rewrite lookup_module_tree. eauto.
  - eapply Forall_impl; [apply blocks_sites_modules |].
    intros site (j & slot & layer & Hp & _ & Hl & Hm).
    rewrite Hp, lookup_module_tree, Hm. rewrite Nat.sub_0_r in Hl.
    rewrite Hl. cbn. eauto.
  - apply Forall_cons. split; [| apply Forall_nil_2].
    cbn [fst snd]. rewrite lookup_module_tree. eauto.
Qed.

Local Ltac named_elsewhere :=
  first [ apply not_in_blocks_sites; intros ? ? [= ? ?]; cbn [length]; lia
        | apply not_in_blocks_sites; intros ? ? ?; discriminate
        | cbn [fmap list_fmap fst]; apply not_elem_of_cons;
          split; [discriminate | apply not_elem_of_nil] ].

Lemma pass_lookup_wte rank world_size model config :
  model_divisible world_size model ->
  foldl (apply_unchecked rank world_size) (module_tree model)
        (model_sites model config) !! path_wte
  = Some (mkTreeNode VocabParallelEmbedding
            (Module_Embedding (vocab_parallel world_size rank (wte model)))).
Proof.
  intros [Hvocab _]. rewrite model_sites_split, !foldl_app.
  rewrite !lookup_pass_elsewhere by named_elsewhere.
  cbn [foldl]. unfold apply_unchecked. cbn [fst snd].
  rewrite replacement_vocab by assumption. apply lookup_insert_eq.
Qed.

Lemma pass_lookup_ln_f rank world_size model config :
  foldl (apply_unchecked rank world_size) (module_tree model)
        (model_sites model config) !! path_ln_f
  = Some (dense (Module_LayerNorm (ln_f model))).
Proof.
  rewrite model_sites_split, !foldl_app.
  cbn [foldl]. unfold apply_unchecked at 1. cbn [fst snd].
  rewrite replacement_replicated.
  rewrite !lookup_pass_elsewhere by named_elsewhere.
  rewrite lookup_apply_unchecked_ne by discriminate.
  apply lookup_module_tree.
Qed.

Lemma pass_lookup_block rank world_size model config i layer :
  model_divisible world_size model ->
  h model !! i = Some layer ->
  let tree' := foldl (apply_unchecked rank world_size) (module_tree model)
                     (model_sites model config) in
  tree' !! path_h i slot_q_proj
    = Some (mkTreeNode ColumnParallelLinear
              (Module_Linear (column_parallel world_size rank (q_proj (attn layer))))) /\
  tree' !! path_h i slot_k_proj
    = Some (mkTreeNode ColumnParallelLinear
              (Module_Linear (column_parallel world_size rank (k_proj (attn layer))))) /\
  tree' !! path_h i slot_v_proj
    = Some (mkTreeNode ColumnParallelLinear
              (Module_Linear (column_parallel world_size rank (v_proj (attn layer))))) /\
  tree' !! path_h i slot_fc_in
    = Some (mkTreeNode ColumnParallelLinear
              (Module_Linear (column_parallel world_size rank (fc_in (mlp layer))))) /\
  tree' !! path_h i slot_out_proj
    = Some (mkTreeNode RowParallelLinear
              (Module_Linear (row_parallel world_size rank (out_proj (attn layer))))) /\
  tree' !! path_h i slot_fc_out
    = Some (mkTreeNode RowParallelLinear
              (Module_Linear (row_parallel world_size rank (fc_out (mlp layer))))) /\
  tree' !! path_h i slot_ln_1 = Some (dense (Module_LayerNorm (ln_1 layer))).
Proof.
  intros [_ Hblocks] Hi tree'. subst tree'.
  pose proof (Forall_lookup_1 _ _ _ _ Hblocks Hi) as Hlayer.
  destruct (list_elem_of_split_length _ _ _ Hi) as (pre & post & Hsplit & ->).
  rewrite model_sites_split, Hsplit, blocks_sites_app.
  cbn [blocks_sites Nat.add]. rewrite !foldl_app.
  repeat split;
    rewrite !lookup_pass_elsewhere by named_elsewhere;
    rewrite block_pass by exact Hlayer;
    repeat first [ rewrite lookup_insert_eq; reflexivity
                 | rewrite lookup_insert_ne by discriminate ].
  rewrite !lookup_pass_elsewhere by named_elsewhere.
  rewrite lookup_module_tree, Hi. reflexivity.
Qed.


End InPlaceProperties.

